(** * Gas and over-temperature alarm (Task 3, main.cpp)

    A shallow embedding of the firmware's polling loop: the alarm latch, the
    code-entry lockout, the serial command handler, the periodic status report
    and the warning emitter, followed by the properties of each. *)

From Stdlib Require Import ZArith List String Ascii Bool Lia.
Import ListNotations.

Local Open Scope string_scope.
Local Open Scope Z_scope.

(** ** Hardware boundary *)

(** [ON] and [OFF] of arm_book_lib.h. *)
Definition OFF : bool := false.
Definition ON : bool := negb OFF.

Definition CR : ascii := "013"%char.
Definition LF : ascii := "010"%char.
Definition NUL : ascii := "000"%char.

(** The two bytes written [\r\n] in the source's literals. *)
Definition crlf : string := String CR (String LF EmptyString).

(** The array a C string literal denotes: its characters and the terminating
    zero byte. *)
Definition c_literal (text : string) : string := text ++ String NUL EmptyString.

(** [int] is 32 bits wide on the target; [int_wrap] brings a sum back into
    its range. *)
Definition INT_MIN : Z := -2147483648.
Definition INT_MAX : Z := 2147483647.
Definition int_range (z : Z) : Prop := INT_MIN <= z <= INT_MAX.
Definition int_wrap (z : Z) : Z := (z - INT_MIN) mod 4294967296 + INT_MIN.

(** What the pins, the serial receiver and the clock deliver during one pass
    of the loop.  Every pin is taken to hold one level for the whole pass.
    [uartRx] is the byte [readable]/[read] deliver at the poll of [uartTask],
    if one is waiting.  The clock counts microseconds; it is sampled when
    [reportTimer.read()] runs and again when [reportTimer.reset()] runs. *)
Record Inputs : Type := mkInputs {
  enterButton : bool;
  gasDetector : bool;
  overTempDetector : bool;
  aButton : bool;
  bButton : bool;
  cButton : bool;
  dButton : bool;
  uartRx : option ascii;
  clockAtRead : Z;
  clockAtReset : Z
}.

(** The global objects and variables of the translation unit.  [reportTimer]
    holds the clock value at which the timer was started or last reset;
    [uartTx] lists the byte blocks handed to [uartUsb.write], oldest first. *)
Record State : Type := mkState {
  alarmLed : bool;
  incorrectCodeLed : bool;
  systemBlockedLed : bool;
  alarmState : bool;
  numberOfIncorrectCodes : Z;
  reportTimer : Z;
  uartTx : list string
}.

Definition set_alarmLed (v : bool) (s : State) : State :=
  mkState v (incorrectCodeLed s) (systemBlockedLed s) (alarmState s)
          (numberOfIncorrectCodes s) (reportTimer s) (uartTx s).

Definition set_incorrectCodeLed (v : bool) (s : State) : State :=
  mkState (alarmLed s) v (systemBlockedLed s) (alarmState s)
          (numberOfIncorrectCodes s) (reportTimer s) (uartTx s).

Definition set_systemBlockedLed (v : bool) (s : State) : State :=
  mkState (alarmLed s) (incorrectCodeLed s) v (alarmState s)
          (numberOfIncorrectCodes s) (reportTimer s) (uartTx s).

Definition set_alarmState (v : bool) (s : State) : State :=
  mkState (alarmLed s) (incorrectCodeLed s) (systemBlockedLed s) v
          (numberOfIncorrectCodes s) (reportTimer s) (uartTx s).

Definition set_numberOfIncorrectCodes (v : Z) (s : State) : State :=
  mkState (alarmLed s) (incorrectCodeLed s) (systemBlockedLed s) (alarmState s)
          v (reportTimer s) (uartTx s).

Definition set_reportTimer (v : Z) (s : State) : State :=
  mkState (alarmLed s) (incorrectCodeLed s) (systemBlockedLed s) (alarmState s)
          (numberOfIncorrectCodes s) v (uartTx s).

Definition set_uartTx (v : list string) (s : State) : State :=
  mkState (alarmLed s) (incorrectCodeLed s) (systemBlockedLed s) (alarmState s)
          (numberOfIncorrectCodes s) (reportTimer s) v.

(** [uartUsb.write(buffer, length)]: the first [length] bytes of [buffer] go
    out as one block. *)
Definition uart_write (buffer : string) (length : nat) (s : State) : State :=
  set_uartTx (uartTx s ++ [substring 0 length buffer])%list s.

(** [snprintf(buffer, size, ...)] once the format is expanded to [formatted]:
    the buffer receives at most [size - 1] characters and a terminator, the
    result is the length of the whole expansion. *)
Definition snprintf (size : nat) (formatted : string) : string * nat :=
  (c_literal (substring 0 (size - 1) formatted), String.length formatted).

(** [reportTimer.read()] in microseconds.  The source compares the reading in
    seconds with [5.0f]; on whole microseconds that is the comparison with
    [report_period]. *)
Definition timer_read (clock : Z) (s : State) : Z := clock - reportTimer s.
Definition timer_reset (clock : Z) (s : State) : State := set_reportTimer clock s.
Definition report_period : Z := 5000000.

(** ** The functions of main.cpp *)

Definition outputsInit (s : State) : State :=
  set_systemBlockedLed OFF (set_incorrectCodeLed OFF (set_alarmLed OFF s)).

Definition alarmActivationUpdate (i : Inputs) (s : State) : State :=
  let s1 := if gasDetector i || overTempDetector i
            then set_alarmState ON s else s in
  set_alarmLed (alarmState s1) s1.

Definition alarmDeactivationUpdate (i : Inputs) (s : State) : State :=
  if numberOfIncorrectCodes s <? 5 then
    let s1 := if aButton i && bButton i && cButton i && dButton i
                 && negb (enterButton i)
              then set_incorrectCodeLed OFF s else s in
    if enterButton i && negb (incorrectCodeLed s1) && alarmState s1 then
      if aButton i && bButton i && negb (cButton i) && negb (dButton i) then
        set_numberOfIncorrectCodes 0 (set_alarmState OFF s1)
      else
        set_numberOfIncorrectCodes (int_wrap (numberOfIncorrectCodes s1 + 1))
                                   (set_incorrectCodeLed ON s1)
    else s1
  else set_systemBlockedLed ON s.

Definition availableCommands (s : State) : State :=
  let s1 := uart_write (c_literal ("Available commands:" ++ crlf)) 21 s in
  let s2 := uart_write
              (c_literal ("Press '1' to get the alarm state" ++ crlf)) 33 s1 in
  let s3 := uart_write
              (c_literal ("Press '2' to check gas status" ++ crlf)) 32 s2 in
  uart_write
    (c_literal ("Press '3' to check temperature status" ++ crlf ++ crlf)) 41 s3.

Definition uartTask (i : Inputs) (s : State) : State :=
  match uartRx i with
  | None => s
  | Some receivedChar =>
      if (receivedChar =? "1")%char then
        uart_write (if alarmState s
                    then c_literal ("The alarm is activated" ++ crlf)
                    else c_literal ("The alarm is not activated" ++ crlf))
                   (if alarmState s then 24 else 28)%nat s
      else if (receivedChar =? "2")%char then
        uart_write (if gasDetector i
                    then c_literal ("Gas detected!" ++ crlf)
                    else c_literal ("No gas detected" ++ crlf))
                   (if gasDetector i then 15 else 18)%nat s
      else if (receivedChar =? "3")%char then
        uart_write (if overTempDetector i
                    then c_literal ("Over temperature detected!" ++ crlf)
                    else c_literal ("Temperature normal" ++ crlf))
                   (if overTempDetector i then 28 else 20)%nat s
      else availableCommands s
  end.

Definition sendStatusReport (i : Inputs) (s : State) : State :=
  let '(buffer, len) :=
    snprintf 128
      (crlf ++ "[STATUS REPORT]" ++ crlf
       ++ "Alarm: " ++ (if alarmState s then "ON" else "OFF") ++ crlf
       ++ "Gas: " ++ (if gasDetector i then "Detected" else "Normal") ++ crlf
       ++ "Temperature: " ++ (if overTempDetector i then "High" else "Normal")
       ++ crlf ++ crlf) in
  uart_write buffer len s.

Definition sendWarningIfNeeded (i : Inputs) (s : State) : State :=
  let s1 := if gasDetector i
            then uart_write
                   (c_literal ("[WARNING] Gas levels unsafe!" ++ crlf)) 29 s
            else s in
  if overTempDetector i
  then uart_write
         (c_literal ("[WARNING] Temperature too high!" ++ crlf)) 33 s1
  else s1.

(** One pass of the [while (true)] body of [main]; the closing
    [thread_sleep_for(100)] only moves the clock, which the next pass reads
    from its own inputs. *)
Definition loop_body (i : Inputs) (s : State) : State :=
  let s1 := alarmActivationUpdate i s in
  let s2 := alarmDeactivationUpdate i s1 in
  let s3 := uartTask i s2 in
  let s4 := if report_period <=? timer_read (clockAtRead i) s3
            then timer_reset (clockAtReset i) (sendStatusReport i s3)
            else s3 in
  sendWarningIfNeeded i s4.

(** The loop over a finite prefix of its passes, one [Inputs] per pass. *)
Fixpoint run (passes : list Inputs) (s : State) : State :=
  match passes with
  | [] => s
  | i :: rest => run rest (loop_body i s)
  end.

(** The state when the loop is entered: the globals' initialisers,
    [outputsInit], and [reportTimer.start()] at clock value [t0];
    [inputsInit] only selects the pull-down mode of the input pins. *)
Definition initialState (t0 : Z) : State :=
  timer_reset t0 (outputsInit (mkState false false false OFF 0 0 [])).

(** ** Observations used by the properties *)

(** Either hazard sensor reads true. *)
Definition hazard (i : Inputs) : bool := gasDetector i || overTempDetector i.

(** The valid deactivation sequence, seen by [alarmDeactivationUpdate] in
    state [s]: enter pressed, incorrect-code indicator off, alarm active,
    a and b pressed, c and d released, fewer than 5 incorrect codes. *)
Definition deactivationSequence (i : Inputs) (s : State) : bool :=
  enterButton i && negb (incorrectCodeLed s) && alarmState s
  && aButton i && bButton i && negb (cButton i) && negb (dButton i)
  && (numberOfIncorrectCodes s <? 5).

(** The same for a whole pass of the loop, where [alarmDeactivationUpdate]
    runs on what [alarmActivationUpdate] leaves. *)
Definition deactivationObserved (i : Inputs) (s : State) : bool :=
  deactivationSequence i (alarmActivationUpdate i s).

(** No pass of the run observes the deactivation sequence. *)
Fixpoint noDeactivation (passes : list Inputs) (s : State) : bool :=
  match passes with
  | [] => true
  | i :: rest =>
      negb (deactivationObserved i s) && noDeactivation rest (loop_body i s)
  end.

(** The condition on which [alarmDeactivationUpdate] clears the
    incorrect-code indicator. *)
Definition clearCondition (i : Inputs) (s : State) : bool :=
  aButton i && bButton i && cButton i && dButton i && negb (enterButton i)
  && (numberOfIncorrectCodes s <? 5).

Fixpoint noClear (passes : list Inputs) (s : State) : bool :=
  match passes with
  | [] => true
  | i :: rest => negb (clearCondition i s) && noClear rest (loop_body i s)
  end.

(** Number of passes of the run that raise the counter by one. *)
Definition incremented (i : Inputs) (s : State) : bool :=
  numberOfIncorrectCodes (loop_body i s) =? numberOfIncorrectCodes s + 1.

Fixpoint increments (passes : list Inputs) (s : State) : nat :=
  match passes with
  | [] => 0%nat
  | i :: rest =>
      ((if incremented i s then 1 else 0) + increments rest (loop_body i s))%nat
  end.

(** The blocks written between state [s] and a later state [s']. *)
Definition written (s s' : State) : list string :=
  skipn (List.length (uartTx s)) (uartTx s').

(** The bytes on the line between [s] and [s'], in order. *)
Definition bytesWritten (s s' : State) : string :=
  String.concat "" (written s s').

(** The complete lines of a byte stream: each text that a carriage return
    and a line feed close.  [current] holds the bytes of the line being
    read. *)
Fixpoint completeLines (current bytes : string) : list string :=
  match bytes with
  | EmptyString => []
  | String c rest =>
      match rest with
      | String c' rest' =>
          if ((c =? CR) && (c' =? LF))%char
          then current :: completeLines "" rest'
          else completeLines (current ++ String c "") rest
      | EmptyString => []
      end
  end.

(** A block is a status report when it opens with the report's header. *)
Definition isStatusReport (block : string) : bool :=
  prefix (crlf ++ "[STATUS REPORT]") block.

Definition reportsEmitted (i : Inputs) (s : State) : nat :=
  List.length (filter isStatusReport (written s (loop_body i s))).

(** Clock readings of the passes that emitted a status report. *)
Fixpoint reportTimes (passes : list Inputs) (s : State) : list Z :=
  match passes with
  | [] => []
  | i :: rest =>
      ((if (0 <? reportsEmitted i s)%nat then [clockAtRead i] else [])
       ++ reportTimes rest (loop_body i s))%list
  end.

(** Successive times are at least one report period apart, the first one
    counted from [from]. *)
Fixpoint spaced (from : Z) (times : list Z) : Prop :=
  match times with
  | [] => True
  | t :: rest => from + report_period <= t /\ spaced t rest
  end.

Definition reportsWithin (lo hi : Z) (times : list Z) : nat :=
  List.length (filter (fun t => (lo <=? t) && (t <? hi)) times).

(** A pass with every input low and nothing received, at clock value [k]
    times 101 ms: the 100 ms sleep and 1 ms of work. *)
Definition idlePass (k : nat) : Inputs :=
  mkInputs false false false false false false false None
           (101000 * Z.of_nat k) (101000 * Z.of_nat k).

Definition idleSchedule (n : nat) : list Inputs := map idlePass (seq 1 n).

(** A pass evaluates the buttons: below the lockout, enter pressed, the
    incorrect-code indicator off, the alarm active after
    [alarmActivationUpdate]. *)
Definition attempt (i : Inputs) (s : State) : bool :=
  (numberOfIncorrectCodes s <? 5) && enterButton i
  && negb (incorrectCodeLed s) && (alarmState s || hazard i).

Definition rightCode (i : Inputs) : bool :=
  aButton i && bButton i && negb (cButton i) && negb (dButton i).

(** The report times as the timer alone fixes them: from the clock value of
    the last reset and the two clock samples of each pass. *)
Fixpoint timerTrace (start : Z) (clocks : list (Z * Z)) : list Z :=
  match clocks with
  | [] => []
  | (atRead, atReset) :: rest =>
      if report_period <=? atRead - start
      then atRead :: timerTrace atReset rest
      else timerTrace start rest
  end.

Definition clocks (i : Inputs) : Z * Z := (clockAtRead i, clockAtReset i).

(** The LEDs, the alarm latch and the counter; the serial and timer code
    never writes them. *)
Definition alarmCore (s : State) : bool * bool * bool * bool * Z :=
  (alarmLed s, incorrectCodeLed s, systemBlockedLed s, alarmState s,
   numberOfIncorrectCodes s).

(** The text [sendStatusReport] formats for an alarm state and the two
    sensor readings. *)
Definition statusText (alarm gas temp : bool) : string :=
  crlf ++ "[STATUS REPORT]" ++ crlf
  ++ "Alarm: " ++ (if alarm then "ON" else "OFF") ++ crlf
  ++ "Gas: " ++ (if gas then "Detected" else "Normal") ++ crlf
  ++ "Temperature: " ++ (if temp then "High" else "Normal") ++ crlf ++ crlf.

(** Blocks that open with the text of the gas warning and of the
    temperature warning. *)
Definition isGasWarning (block : string) : bool :=
  prefix "[WARNING] Gas" block.

Definition isTempWarning (block : string) : bool :=
  prefix "[WARNING] Temperature" block.

(** Whether the periodic report is due in a pass. *)
Definition reportDue (i : Inputs) (s : State) : bool :=
  report_period <=? clockAtRead i - reportTimer s.



(** What holds of the LEDs and the counter whenever a pass has ended: the
    alarm LED is on while the alarm is, the incorrect-code indicator is on
    only with a counted incorrect code, the blocked indicator only in the
    lockout, and in the lockout the incorrect-code indicator is on. *)
Definition indicatorsConsistent (s : State) : Prop :=
  0 <= numberOfIncorrectCodes s <= 5
  /\ (alarmState s = true -> alarmLed s = true)
  /\ (incorrectCodeLed s = true -> 1 <= numberOfIncorrectCodes s)
  /\ (systemBlockedLed s = true -> numberOfIncorrectCodes s = 5)
  /\ (numberOfIncorrectCodes s = 5 -> incorrectCodeLed s = true).

(** ** Inputs used in the examples *)

Definition quiet : Inputs :=
  mkInputs false false false false false false false None 0 0.

(** Gas present, enter pressed with the accepted code (a and b). *)
Definition gasAndRightCode : Inputs :=
  mkInputs true true false true true false false None 0 0.

(** Gas present, enter pressed with a rejected code (a alone). *)
Definition gasAndWrongCode : Inputs :=
  mkInputs true true false true false false false None 0 0.

(** All four code buttons pressed, enter released. *)
Definition clearCode : Inputs :=
  mkInputs false false false true true true true None 0 0.

Definition gasOnly : Inputs :=
  mkInputs false true false false false false false None 0 0.

(** Five rejected codes, the indicator cleared after each. *)
Definition fiveFailures : list Inputs :=
  [gasAndWrongCode; clearCode; gasAndWrongCode; clearCode; gasAndWrongCode;
   clearCode; gasAndWrongCode; clearCode; gasAndWrongCode].


(** ** What each function leaves alone *)

Lemma uart_write_core (buffer : string) (n : nat) (s : State) :
  alarmCore (uart_write buffer n s) = alarmCore s.
Proof. reflexivity. Qed.

Lemma uart_write_timer (buffer : string) (n : nat) (s : State) :
  reportTimer (uart_write buffer n s) = reportTimer s.
Proof. reflexivity. Qed.

Lemma uart_write_tx (buffer : string) (n : nat) (s : State) :
  uartTx (uart_write buffer n s) = (uartTx s ++ [substring 0 n buffer])%list.
Proof. reflexivity. Qed.

Lemma uartTask_core (i : Inputs) (s : State) :
  alarmCore (uartTask i s) = alarmCore s.
Proof.
  unfold uartTask, availableCommands.
  destruct (uartRx i) as [c|]; [|reflexivity].
  destruct (c =? "1")%char; [reflexivity|].
  destruct (c =? "2")%char; [reflexivity|].
  destruct (c =? "3")%char; reflexivity.
Qed.

Lemma uartTask_timer (i : Inputs) (s : State) :
  reportTimer (uartTask i s) = reportTimer s.
Proof.
  unfold uartTask, availableCommands.
  destruct (uartRx i) as [c|]; [|reflexivity].
  destruct (c =? "1")%char; [reflexivity|].
  destruct (c =? "2")%char; [reflexivity|].
  destruct (c =? "3")%char; reflexivity.
Qed.

Lemma sendStatusReport_core (i : Inputs) (s : State) :
  alarmCore (sendStatusReport i s) = alarmCore s.
Proof. reflexivity. Qed.

Lemma sendWarningIfNeeded_core (i : Inputs) (s : State) :
  alarmCore (sendWarningIfNeeded i s) = alarmCore s.
Proof.
  unfold sendWarningIfNeeded.
  destruct (gasDetector i), (overTempDetector i); reflexivity.
Qed.

Lemma sendWarningIfNeeded_timer (i : Inputs) (s : State) :
  reportTimer (sendWarningIfNeeded i s) = reportTimer s.
Proof.
  unfold sendWarningIfNeeded.
  destruct (gasDetector i), (overTempDetector i); reflexivity.
Qed.

Lemma alarm_updates_timer (i : Inputs) (s : State) :
  reportTimer (alarmDeactivationUpdate i (alarmActivationUpdate i s))
  = reportTimer s.
Proof.
  unfold alarmDeactivationUpdate, alarmActivationUpdate.
  repeat match goal with
         | |- context [if ?b then _ else _] => destruct b; cbn
         end; reflexivity.
Qed.

Lemma alarm_updates_tx (i : Inputs) (s : State) :
  uartTx (alarmDeactivationUpdate i (alarmActivationUpdate i s)) = uartTx s.
Proof.
  unfold alarmDeactivationUpdate, alarmActivationUpdate.
  repeat match goal with
         | |- context [if ?b then _ else _] => destruct b; cbn
         end; reflexivity.
Qed.

Lemma loop_body_core (i : Inputs) (s : State) :
  alarmCore (loop_body i s)
  = alarmCore (alarmDeactivationUpdate i (alarmActivationUpdate i s)).
Proof.
  unfold loop_body; cbv zeta.
  rewrite sendWarningIfNeeded_core.
  destruct (report_period <=? _).
  - unfold timer_reset, set_reportTimer.
    change (alarmCore (sendStatusReport i
              (uartTask i (alarmDeactivationUpdate i (alarmActivationUpdate i s))))
            = alarmCore (alarmDeactivationUpdate i (alarmActivationUpdate i s))).
    now rewrite sendStatusReport_core, uartTask_core.
  - apply uartTask_core.
Qed.

(** The alarm part of a pass, field by field. *)
Lemma loop_body_fields (i : Inputs) (s : State) :
  let s' := alarmDeactivationUpdate i (alarmActivationUpdate i s) in
  alarmLed (loop_body i s) = alarmLed s'
  /\ incorrectCodeLed (loop_body i s) = incorrectCodeLed s'
  /\ systemBlockedLed (loop_body i s) = systemBlockedLed s'
  /\ alarmState (loop_body i s) = alarmState s'
  /\ numberOfIncorrectCodes (loop_body i s) = numberOfIncorrectCodes s'.
Proof.
  pose proof (loop_body_core i s) as H. unfold alarmCore in H.
  inversion H. cbv zeta. repeat split; assumption.
Qed.

Lemma alarmActivationUpdate_alarmState (i : Inputs) (s : State) :
  alarmState (alarmActivationUpdate i s) = alarmState s || hazard i.
Proof.
  unfold alarmActivationUpdate, hazard.
  destruct (gasDetector i || overTempDetector i); cbn.
  - now rewrite orb_true_r.
  - now rewrite orb_false_r.
Qed.

Lemma alarmActivationUpdate_frame (i : Inputs) (s : State) :
  incorrectCodeLed (alarmActivationUpdate i s) = incorrectCodeLed s
  /\ systemBlockedLed (alarmActivationUpdate i s) = systemBlockedLed s
  /\ numberOfIncorrectCodes (alarmActivationUpdate i s)
     = numberOfIncorrectCodes s.
Proof.
  unfold alarmActivationUpdate.
  destruct (gasDetector i || overTempDetector i); repeat split.
Qed.

Lemma int_wrap_small (z : Z) : int_range z -> int_wrap z = z.
Proof.
  unfold int_range, int_wrap, INT_MIN, INT_MAX. intros H.
  rewrite Z.mod_small; lia.
Qed.

(** What [alarmDeactivationUpdate] does to the alarm latch: it clears it
    exactly on the deactivation sequence. *)
Lemma alarmDeactivationUpdate_alarmState (i : Inputs) (s : State) :
  alarmState (alarmDeactivationUpdate i s)
  = alarmState s && negb (deactivationSequence i s).
Proof.
  unfold alarmDeactivationUpdate, deactivationSequence.
  destruct s as [led bad blocked alarm n t tx]; cbn.
  destruct (n <? 5), (enterButton i), (aButton i), (bButton i), (cButton i),
    (dButton i), bad, alarm; reflexivity.
Qed.

Lemma loop_body_alarmState (i : Inputs) (s : State) :
  alarmState (loop_body i s)
  = (alarmState s || hazard i) && negb (deactivationObserved i s).
Proof.
  destruct (loop_body_fields i s) as (_ & _ & _ & H & _). rewrite H.
  rewrite alarmDeactivationUpdate_alarmState, alarmActivationUpdate_alarmState.
  reflexivity.
Qed.

Lemma alarm_stays_on (passes : list Inputs) :
  forall s : State,
    alarmState s = true -> noDeactivation passes s = true ->
    alarmState (run passes s) = true.
Proof.
  induction passes as [|i rest IH]; intros s Hs Hno; [exact Hs|].
  cbn in Hno |- *. apply andb_true_iff in Hno as [Hi Hrest].
  apply IH; [|exact Hrest].
  rewrite loop_body_alarmState, Hs, Hi. reflexivity.
Qed.

(** ** Alarm activation and deactivation *)

(** C1. Once a hazard sensor reads true in a pass, [alarmState] is true after
    [alarmActivationUpdate] and is true at the end of that pass and of every
    later pass, whatever the sensors read later, as long as no pass observes
    the valid deactivation sequence; a pass that observes it ends with
    [alarmState] false. *)
Theorem alarm_latched_until_deactivation :
  forall (i : Inputs) (later : list Inputs) (s : State),
    hazard i = true ->
    alarmState (alarmActivationUpdate i s) = true
    /\ (noDeactivation (i :: later) s = true ->
        alarmState (run (i :: later) s) = true)
    /\ (forall (j : Inputs) (s' : State),
          deactivationObserved j s' = true ->
          alarmState (loop_body j s') = false).
Proof.
  intros i later s Hhaz. repeat split.
  - rewrite alarmActivationUpdate_alarmState, Hhaz. apply orb_true_r.
  - intros Hno. cbn in Hno |- *.
    apply andb_true_iff in Hno as [Hi Hrest].
    apply alarm_stays_on; [|exact Hrest].
    rewrite loop_body_alarmState, Hhaz, Hi, orb_true_r. reflexivity.
  - intros j s' Hobs. rewrite loop_body_alarmState, Hobs.
    apply andb_false_r.
Qed.

Lemma alarm_latched_witness :
  hazard gasOnly = true
  /\ noDeactivation [gasOnly; quiet; gasAndWrongCode] (initialState 0) = true
  /\ alarmState (run [gasOnly; quiet; gasAndWrongCode] (initialState 0)) = true.
Proof.
  split; [reflexivity|]. split; [reflexivity|].
  exact (proj1 (proj2 (alarm_latched_until_deactivation
                         gasOnly [quiet; gasAndWrongCode] (initialState 0)
                         eq_refl))
               eq_refl).
Defined.

(** C2. With fewer than 5 incorrect codes, enter pressed, the incorrect-code
    indicator off and the alarm active, [alarmDeactivationUpdate] clears
    [alarmState] and resets the counter when a and b are pressed and c and d
    released; for every other combination it lights the incorrect-code
    indicator and adds one to the counter. *)
Theorem deactivation_attempt :
  forall (i : Inputs) (s : State),
    int_range (numberOfIncorrectCodes s) ->
    numberOfIncorrectCodes s < 5 ->
    enterButton i = true ->
    incorrectCodeLed s = false ->
    alarmState s = true ->
    (aButton i = true /\ bButton i = true
     /\ cButton i = false /\ dButton i = false ->
     alarmState (alarmDeactivationUpdate i s) = false
     /\ numberOfIncorrectCodes (alarmDeactivationUpdate i s) = 0)
    /\ (~ (aButton i = true /\ bButton i = true
           /\ cButton i = false /\ dButton i = false) ->
        incorrectCodeLed (alarmDeactivationUpdate i s) = true
        /\ numberOfIncorrectCodes (alarmDeactivationUpdate i s)
           = numberOfIncorrectCodes s + 1).
Proof.
  intros i s Hrange Hlt Henter Hled Halarm.
  assert (Hwrap : int_wrap (numberOfIncorrectCodes s + 1)
                  = numberOfIncorrectCodes s + 1).
  { apply int_wrap_small. unfold int_range, INT_MIN, INT_MAX in *. lia. }
  apply Z.ltb_lt in Hlt.
  unfold alarmDeactivationUpdate. rewrite Hlt, Henter.
  destruct s as [led bad blocked alarm n t tx]; cbn in *. subst bad alarm.
  split.
  - intros (Ha & Hb & Hc & Hd). rewrite Ha, Hb, Hc, Hd. cbn. split; reflexivity.
  - intros Hnot.
    destruct (aButton i), (bButton i), (cButton i), (dButton i); cbn;
      try (split; [reflexivity | exact Hwrap]).
    exfalso. apply Hnot. repeat split.
Qed.

Lemma deactivation_attempt_witness :
  incorrectCodeLed
    (alarmDeactivationUpdate gasAndWrongCode
       (alarmActivationUpdate gasAndWrongCode (initialState 0))) = true
  /\ numberOfIncorrectCodes
       (alarmDeactivationUpdate gasAndWrongCode
          (alarmActivationUpdate gasAndWrongCode (initialState 0))) = 0 + 1.
Proof.
  refine (proj2 (deactivation_attempt gasAndWrongCode
                   (alarmActivationUpdate gasAndWrongCode (initialState 0))
                   _ _ eq_refl eq_refl eq_refl) _).
  - unfold int_range, INT_MIN, INT_MAX. cbn. lia.
  - cbn. lia.
  - cbn. intros (_ & Hb & _). discriminate Hb.
Defined.

(** C3, as the code has it.  After [alarmActivationUpdate] the alarm LED
    equals [alarmState].  At the end of a pass the LED shows the latch as
    [alarmActivationUpdate] left it, while [alarmState] is that value cleared
    by an observed deactivation sequence: the two agree except in a pass that
    deactivates the alarm, where the LED is still on and [alarmState] is off
    until the next pass. *)
Theorem alarmLed_follows_activation :
  forall (i : Inputs) (s : State),
    alarmLed (alarmActivationUpdate i s) = alarmState (alarmActivationUpdate i s)
    /\ alarmLed (loop_body i s) = alarmState s || hazard i
    /\ alarmState (loop_body i s)
       = (alarmState s || hazard i) && negb (deactivationObserved i s)
    /\ alarmLed (loop_body i s)
       = alarmState (loop_body i s) || deactivationObserved i s.
Proof.
  intros i s.
  assert (Hled : alarmLed (loop_body i s) = alarmState s || hazard i).
  { destruct (loop_body_fields i s) as (H & _). rewrite H.
    rewrite <- alarmActivationUpdate_alarmState.
    unfold alarmDeactivationUpdate, alarmActivationUpdate.
    repeat match goal with
           | |- context [if ?b then _ else _] => destruct b; cbn
           end; reflexivity. }
  split; [reflexivity|]. split; [exact Hled|].
  split; [apply loop_body_alarmState|].
  rewrite Hled, loop_body_alarmState.
  unfold deactivationObserved, deactivationSequence.
  rewrite alarmActivationUpdate_alarmState.
  destruct (alarmState s || hazard i); cbn.
  - now destruct (_ && _).
  - rewrite !andb_false_r. reflexivity.
Qed.

(** C3 as stated fails: gas is present and the accepted code is entered in
    the same pass; the pass ends with the LED on and [alarmState] off. *)
Lemma alarmLed_differs_after_deactivation :
  alarmLed (loop_body gasAndRightCode (initialState 0)) = true
  /\ alarmState (loop_body gasAndRightCode (initialState 0)) = false
  /\ alarmLed (alarmDeactivationUpdate gasAndRightCode
                 (alarmActivationUpdate gasAndRightCode (initialState 0)))
     <> alarmState (alarmDeactivationUpdate gasAndRightCode
                      (alarmActivationUpdate gasAndRightCode (initialState 0))).
Proof. repeat split. cbn. discriminate. Qed.

(** C4, as the code has it.  With fewer than 5 incorrect codes, all four code
    buttons pressed while enter is not pressed make
    [alarmDeactivationUpdate] switch the incorrect-code indicator off. *)
Theorem all_pressed_clears_incorrectCodeLed :
  forall (i : Inputs) (s : State),
    numberOfIncorrectCodes s < 5 ->
    aButton i = true -> bButton i = true ->
    cButton i = true -> dButton i = true ->
    enterButton i = false ->
    incorrectCodeLed (alarmDeactivationUpdate i s) = false.
Proof.
  intros i s Hlt Ha Hb Hc Hd He. apply Z.ltb_lt in Hlt.
  unfold alarmDeactivationUpdate. rewrite Hlt, Ha, Hb, Hc, Hd, He.
  reflexivity.
Qed.

Lemma all_pressed_clears_witness :
  incorrectCodeLed (run [gasAndWrongCode] (initialState 0)) = true
  /\ incorrectCodeLed
       (alarmDeactivationUpdate clearCode
          (run [gasAndWrongCode] (initialState 0))) = false.
Proof.
  split; [reflexivity|].
  apply (all_pressed_clears_incorrectCodeLed clearCode
           (run [gasAndWrongCode] (initialState 0)));
    [cbn; lia | reflexivity ..].
Defined.

(** C4 as stated fails: after one rejected code the indicator is on and the
    counter is 1; with all four code buttons and enter released the indicator
    stays on. *)
Lemma all_released_keeps_incorrectCodeLed :
  numberOfIncorrectCodes (run [gasAndWrongCode] (initialState 0)) < 5
  /\ aButton quiet = false /\ bButton quiet = false
  /\ cButton quiet = false /\ dButton quiet = false
  /\ enterButton quiet = false
  /\ incorrectCodeLed (run [gasAndWrongCode] (initialState 0)) = true
  /\ incorrectCodeLed
       (alarmDeactivationUpdate quiet
          (run [gasAndWrongCode] (initialState 0))) = true.
Proof. cbn. repeat split. Qed.

(** ** The code-entry lockout over whole passes *)

Ltac alarm_cases i s :=
  let n := fresh "n" in
  destruct s as [? ? ? ? n ? ?];
  destruct i as [[] [] [] [] [] [] [] ? ? ?];
  cbn in *;
  destruct (n <? 5) eqn:?; cbn;
  repeat match goal with
         | b : bool |- _ => destruct b; cbn
         end;
  try reflexivity; try discriminate.

Lemma pass_counter (i : Inputs) (s : State) :
  int_range (numberOfIncorrectCodes s) ->
  numberOfIncorrectCodes (loop_body i s)
  = if attempt i s
    then if rightCode i then 0 else numberOfIncorrectCodes s + 1
    else numberOfIncorrectCodes s.
Proof.
  intros Hrange.
  destruct (loop_body_fields i s) as (_ & _ & _ & _ & H). rewrite H. clear H.
  unfold attempt, rightCode, hazard, alarmDeactivationUpdate,
    alarmActivationUpdate.
  alarm_cases i s;
    apply int_wrap_small; apply Z.ltb_lt in Heqb;
    unfold int_range, INT_MIN, INT_MAX in *; lia.
Qed.

Lemma pass_incorrectCodeLed (i : Inputs) (s : State) :
  incorrectCodeLed (loop_body i s)
  = if clearCondition i s then false
    else if attempt i s && negb (rightCode i) then true
         else incorrectCodeLed s.
Proof.
  destruct (loop_body_fields i s) as (_ & H & _). rewrite H. clear H.
  unfold clearCondition, attempt, rightCode, hazard, alarmDeactivationUpdate,
    alarmActivationUpdate.
  alarm_cases i s.
Qed.

Lemma pass_systemBlockedLed (i : Inputs) (s : State) :
  systemBlockedLed (loop_body i s)
  = if numberOfIncorrectCodes s <? 5 then systemBlockedLed s else true.
Proof.
  destruct (loop_body_fields i s) as (_ & _ & H & _). rewrite H. clear H.
  unfold alarmDeactivationUpdate, alarmActivationUpdate.
  alarm_cases i s.
Qed.

Lemma pass_counter_bounds (i : Inputs) (s : State) :
  0 <= numberOfIncorrectCodes s <= 5 ->
  0 <= numberOfIncorrectCodes (loop_body i s) <= 5.
Proof.
  intros H. rewrite pass_counter by (unfold int_range, INT_MIN, INT_MAX; lia).
  unfold attempt.
  destruct (numberOfIncorrectCodes s <? 5) eqn:E; cbn; [|lia].
  apply Z.ltb_lt in E.
  destruct (_ && _ && _), (rightCode i); lia.
Qed.

Lemma run_counter_bounds (passes : list Inputs) :
  forall s : State,
    0 <= numberOfIncorrectCodes s <= 5 ->
    0 <= numberOfIncorrectCodes (run passes s) <= 5.
Proof.
  induction passes as [|i rest IH]; intros s H; [exact H|].
  cbn. apply IH, pass_counter_bounds, H.
Qed.

(** Once the counter is 5 a pass only switches the blocked indicator on. *)
Lemma locked_pass (i : Inputs) (s : State) :
  numberOfIncorrectCodes s = 5 ->
  numberOfIncorrectCodes (loop_body i s) = 5
  /\ alarmState (loop_body i s) = alarmState s || hazard i
  /\ systemBlockedLed (loop_body i s) = true.
Proof.
  intros H5. repeat split.
  - rewrite pass_counter by (rewrite H5; unfold int_range, INT_MIN, INT_MAX; lia).
    unfold attempt. rewrite H5. reflexivity.
  - rewrite loop_body_alarmState.
    unfold deactivationObserved, deactivationSequence.
    destruct (alarmActivationUpdate_frame i s) as (_ & _ & Hc).
    rewrite Hc, H5. cbn. rewrite !andb_false_r. apply andb_true_r.
  - rewrite pass_systemBlockedLed, H5. reflexivity.
Qed.

Lemma locked_run (passes : list Inputs) :
  forall s : State,
    numberOfIncorrectCodes s = 5 ->
    numberOfIncorrectCodes (run passes s) = 5
    /\ alarmState (run passes s) = alarmState s || existsb hazard passes
    /\ (passes <> [] \/ systemBlockedLed s = true ->
        systemBlockedLed (run passes s) = true).
Proof.
  induction passes as [|i rest IH]; intros s H5; cbn.
  - repeat split; [exact H5 | now rewrite orb_false_r |].
    intros [H|H]; [now contradiction H | exact H].
  - destruct (locked_pass i s H5) as (Hc & Ha & Hb).
    destruct (IH (loop_body i s) Hc) as (Hc' & Ha' & Hb').
    repeat split; [exact Hc' | now rewrite Ha', Ha, orb_assoc |].
    intros _. apply Hb'. now right.
Qed.

(** C7. From the initial state the counter stays within 0..5; a pass leaves
    it unchanged, resets it to 0, or adds one, and adds one only when it was
    below 5.  Once it is 5, no later pass changes it or switches the alarm
    off, whatever the buttons show, and every later pass leaves the
    system-blocked indicator on. *)
Theorem lockout_is_permanent :
  forall (t0 : Z) (before after : list Inputs),
    let s := run before (initialState t0) in
    0 <= numberOfIncorrectCodes s <= 5
    /\ (forall i : Inputs,
          numberOfIncorrectCodes (loop_body i s) = numberOfIncorrectCodes s
          \/ numberOfIncorrectCodes (loop_body i s) = 0
          \/ (numberOfIncorrectCodes s < 5
              /\ numberOfIncorrectCodes (loop_body i s)
                 = numberOfIncorrectCodes s + 1))
    /\ (numberOfIncorrectCodes s = 5 ->
        numberOfIncorrectCodes (run after s) = 5
        /\ alarmState (run after s) = alarmState s || existsb hazard after
        /\ (after <> [] -> systemBlockedLed (run after s) = true)).
Proof.
  intros t0 before after s.
  assert (Hb : 0 <= numberOfIncorrectCodes s <= 5).
  { apply run_counter_bounds. cbn. lia. }
  split; [exact Hb|]. split.
  - intros i.
    rewrite pass_counter by (unfold int_range, INT_MIN, INT_MAX; lia).
    unfold attempt.
    destruct (numberOfIncorrectCodes s <? 5) eqn:E; cbn; [|now left].
    apply Z.ltb_lt in E.
    destruct (_ && _ && _); [|now left].
    destruct (rightCode i); [now right; left | right; right; now split].
  - intros H5. destruct (locked_run after s H5) as (Hc & Ha & Hl).
    repeat split; [exact Hc | exact Ha |].
    intros Hne. apply Hl. now left.
Qed.

(** Five rejected codes, then a sixth attempt with the accepted code. *)
Lemma lockout_witness :
  numberOfIncorrectCodes (run fiveFailures (initialState 0)) = 5
  /\ rightCode gasAndRightCode = true
  /\ numberOfIncorrectCodes
       (run [gasAndRightCode] (run fiveFailures (initialState 0))) = 5
  /\ alarmState
       (run [gasAndRightCode] (run fiveFailures (initialState 0))) = true
  /\ systemBlockedLed
       (run [gasAndRightCode] (run fiveFailures (initialState 0))) = true.
Proof.
  destruct (lockout_is_permanent 0 fiveFailures [gasAndRightCode])
    as (_ & _ & H).
  destruct (H eq_refl) as (Hc & Ha & Hl).
  split; [reflexivity|]. split; [reflexivity|]. split; [exact Hc|].
  split; [rewrite Ha; reflexivity|].
  apply Hl. discriminate.
Defined.

(** With the incorrect-code indicator on and no clear condition, a run
    leaves the counter alone. *)
Lemma indicator_on_run (passes : list Inputs) :
  forall s : State,
    int_range (numberOfIncorrectCodes s) ->
    incorrectCodeLed s = true ->
    noClear passes s = true ->
    increments passes s = 0%nat
    /\ numberOfIncorrectCodes (run passes s) = numberOfIncorrectCodes s.
Proof.
  induction passes as [|i rest IH]; intros s Hr Hled Hno; cbn; [now split|].
  cbn in Hno. apply andb_true_iff in Hno as [Hi Hrest].
  apply negb_true_iff in Hi.
  assert (Hc : numberOfIncorrectCodes (loop_body i s)
               = numberOfIncorrectCodes s).
  { rewrite pass_counter by exact Hr. unfold attempt.
    rewrite Hled, andb_false_r. reflexivity. }
  assert (Hl : incorrectCodeLed (loop_body i s) = true).
  { rewrite pass_incorrectCodeLed, Hi. unfold attempt.
    rewrite Hled, andb_false_r. reflexivity. }
  destruct (IH (loop_body i s)) as (Hn & Hc');
    [rewrite Hc; exact Hr | exact Hl | exact Hrest |].
  unfold incremented. rewrite Hc, Hn, Hc'.
  replace (numberOfIncorrectCodes s =? numberOfIncorrectCodes s + 1)
    with false by (symmetry; apply Z.eqb_neq; lia).
  now split.
Qed.

Lemma one_increment_run (passes : list Inputs) :
  forall s : State,
    0 <= numberOfIncorrectCodes s <= INT_MAX ->
    noClear passes s = true ->
    (increments passes s <= 1)%nat
    /\ numberOfIncorrectCodes (run passes s) <= numberOfIncorrectCodes s + 1.
Proof.
  induction passes as [|i rest IH]; intros s Hr Hno; cbn; [split; lia|].
  assert (Hrange : int_range (numberOfIncorrectCodes s))
    by (unfold int_range, INT_MIN, INT_MAX in *; lia).
  cbn in Hno. apply andb_true_iff in Hno as [Hi Hrest].
  apply negb_true_iff in Hi.
  pose proof (pass_counter i s Hrange) as Hc.
  pose proof (pass_incorrectCodeLed i s) as Hl. rewrite Hi in Hl.
  unfold incremented.
  destruct (attempt i s) eqn:Hatt.
  - assert (Hlt : numberOfIncorrectCodes s < 5).
    { unfold attempt in Hatt. apply Z.ltb_lt.
      destruct (numberOfIncorrectCodes s <? 5); [reflexivity | discriminate]. }
    destruct (rightCode i); cbn in Hl.
    + destruct (IH (loop_body i s)) as (Hn & Hc');
        [rewrite Hc; unfold INT_MAX; lia | exact Hrest |].
      rewrite Hc in Hc' |- *.
      replace (0 =? numberOfIncorrectCodes s + 1)
        with false by (symmetry; apply Z.eqb_neq; lia).
      split; lia.
    + destruct (indicator_on_run rest (loop_body i s)) as (Hn & Hc');
        [rewrite Hc; unfold int_range, INT_MIN, INT_MAX in *; lia
        | exact Hl | exact Hrest |].
      rewrite Hn, Hc', Hc, Z.eqb_refl. split; lia.
  - destruct (IH (loop_body i s)) as (Hn & Hc');
      [rewrite Hc; exact Hr | exact Hrest |].
    rewrite Hc in Hc' |- *.
    replace (numberOfIncorrectCodes s =? numberOfIncorrectCodes s + 1)
      with false by (symmetry; apply Z.eqb_neq; lia).
    split; lia.
Qed.

(** C10. While the incorrect-code indicator is on, [alarmDeactivationUpdate]
    changes neither the counter nor [alarmState], whatever enter and the code
    buttons show, and the indicator goes off exactly on the clear condition
    (all four code buttons pressed, enter released, counter below 5).  Over
    any stretch of passes without the clear condition, at most one pass adds
    to the counter, and the counter ends at most one above where it
    started. *)
Theorem incorrectCodeLed_blocks_attempts :
  (forall (i : Inputs) (s : State),
      incorrectCodeLed s = true ->
      numberOfIncorrectCodes (alarmDeactivationUpdate i s)
      = numberOfIncorrectCodes s
      /\ alarmState (alarmDeactivationUpdate i s) = alarmState s
      /\ incorrectCodeLed (alarmDeactivationUpdate i s)
         = negb (clearCondition i s))
  /\ (forall (passes : list Inputs) (s : State),
        0 <= numberOfIncorrectCodes s <= INT_MAX ->
        noClear passes s = true ->
        (increments passes s <= 1)%nat
        /\ numberOfIncorrectCodes (run passes s)
           <= numberOfIncorrectCodes s + 1).
Proof.
  split.
  - intros i s Hled.
    unfold alarmDeactivationUpdate, clearCondition.
    destruct s as [led bad blocked alarm n t tx]; cbn in *. subst bad.
    destruct (n <? 5), (aButton i), (bButton i), (cButton i), (dButton i),
      (enterButton i); cbn; repeat split.
  - intros passes s. apply one_increment_run.
Qed.

(** A rejected code, then enter pressed again with a rejected and with the
    accepted code: the counter goes from 0 to 1 and no further. *)
Lemma incorrectCodeLed_blocks_witness :
  noClear [gasAndWrongCode; gasAndWrongCode; gasAndRightCode; quiet]
          (initialState 0) = true
  /\ increments [gasAndWrongCode; gasAndWrongCode; gasAndRightCode; quiet]
                (initialState 0) = 1%nat
  /\ numberOfIncorrectCodes
       (run [gasAndWrongCode; gasAndWrongCode; gasAndRightCode; quiet]
            (initialState 0)) <= 0 + 1
  /\ alarmState
       (alarmDeactivationUpdate gasAndRightCode
          (run [gasAndWrongCode] (initialState 0))) = true.
Proof.
  destruct incorrectCodeLed_blocks_attempts as (Hone & Hrun).
  split; [reflexivity|]. split; [reflexivity|]. split.
  - apply (Hrun [gasAndWrongCode; gasAndWrongCode; gasAndRightCode; quiet]
                (initialState 0)); [cbn; unfold INT_MAX; lia | reflexivity].
  - destruct (Hone gasAndRightCode (run [gasAndWrongCode] (initialState 0))
                   eq_refl) as (_ & Ha & _).
    rewrite Ha. reflexivity.
Defined.

(** ** Serial output *)

Lemma written_app (s s' : State) (blocks : list string) :
  uartTx s' = (uartTx s ++ blocks)%list -> written s s' = blocks.
Proof.
  unfold written. intros ->.
  induction (uartTx s) as [|b l IH]; [reflexivity | exact IH].
Qed.

(** C5, on the code.  On the byte '2' [uartTask] writes one block: with the
    gas sensor true the 15 bytes of the gas message; with it false 18 bytes,
    the 17 of the no-gas message followed by a zero byte. *)
Theorem gas_query_reply :
  forall (s : State) (e g t a b c d : bool) (r z : Z),
    written s (uartTask (mkInputs e g t a b c d (Some "2"%char) r z) s)
    = [if g then "Gas detected!" ++ crlf
       else "No gas detected" ++ crlf ++ String NUL EmptyString]
    /\ "No gas detected" ++ crlf ++ String NUL EmptyString
       <> "No gas detected" ++ crlf.
Proof.
  intros s e g t a b c d r z. split; [|discriminate].
  apply written_app. destruct g; reflexivity.
Qed.

(** C6, on the code.  On a byte other than '1', '2' and '3' [uartTask]
    writes the four blocks of [availableCommands]: the second stops after the
    carriage return, without its line feed, and the third carries a zero byte
    after its line end. *)
Theorem help_text_reply :
  forall (i : Inputs) (s : State) (c : ascii),
    uartRx i = Some c ->
    c <> "1"%char -> c <> "2"%char -> c <> "3"%char ->
    written s (uartTask i s)
    = ["Available commands:" ++ crlf;
       "Press '1' to get the alarm state" ++ String CR EmptyString;
       "Press '2' to check gas status" ++ crlf ++ String NUL EmptyString;
       "Press '3' to check temperature status" ++ crlf ++ crlf].
Proof.
  intros i s c Hrx H1 H2 H3. apply written_app.
  unfold uartTask. rewrite Hrx.
  apply Ascii.eqb_neq in H1, H2, H3. rewrite H1, H2, H3.
  unfold availableCommands; cbn. rewrite <- !app_assoc. reflexivity.
Qed.

Lemma help_text_reply_witness :
  written (initialState 0)
    (uartTask (mkInputs false false false false false false false
                        (Some "h"%char) 0 0) (initialState 0))
  = ["Available commands:" ++ crlf;
     "Press '1' to get the alarm state" ++ String CR EmptyString;
     "Press '2' to check gas status" ++ crlf ++ String NUL EmptyString;
     "Press '3' to check temperature status" ++ crlf ++ crlf].
Proof.
  apply (help_text_reply _ (initialState 0) "h"%char);
    [reflexivity | discriminate ..].
Defined.

Lemma warning_blocks (i : Inputs) (s : State) :
  written s (sendWarningIfNeeded i s)
  = ((if gasDetector i
      then [("[WARNING] Gas levels unsafe!" ++ String CR EmptyString)%string]
      else [])
     ++ (if overTempDetector i
         then [("[WARNING] Temperature too high!" ++ crlf)%string]
         else []))%list.
Proof.
  apply written_app. unfold sendWarningIfNeeded.
  destruct (gasDetector i), (overTempDetector i); cbn;
    rewrite <- ?app_assoc, ?app_nil_r; reflexivity.
Qed.

(** C9, on the code.  [sendWarningIfNeeded] writes nothing when both sensors
    read false, one block for the gas sensor when it reads true and one for
    the over-temperature sensor when it reads true.  The gas block is written
    with length 29 and stops after the carriage return: with gas alone the
    bytes of the pass hold no complete line, and with both sensors true they
    hold a single line, which carries both texts. *)
Theorem warnings_per_pass :
  forall (i : Inputs) (s : State),
    List.length (written s (sendWarningIfNeeded i s))
    = ((if gasDetector i then 1 else 0)
       + (if overTempDetector i then 1 else 0))%nat
    /\ completeLines "" (bytesWritten s (sendWarningIfNeeded i s))
       = match gasDetector i, overTempDetector i with
         | false, false => []
         | false, true => ["[WARNING] Temperature too high!"]
         | true, false => []
         | true, true =>
             ["[WARNING] Gas levels unsafe!" ++ String CR EmptyString
              ++ "[WARNING] Temperature too high!"]
         end.
Proof.
  intros i s. unfold bytesWritten. rewrite warning_blocks.
  destruct (gasDetector i), (overTempDetector i); split; reflexivity.
Qed.

(** ** The periodic report *)

Lemma timer_reset_tx (clock : Z) (s : State) :
  uartTx (timer_reset clock s) = uartTx s.
Proof. reflexivity. Qed.

Lemma uartTask_tx (i : Inputs) (s : State) :
  exists blocks : list string,
    uartTx (uartTask i s) = (uartTx s ++ blocks)%list
    /\ filter isStatusReport blocks = [].
Proof.
  unfold uartTask, availableCommands.
  destruct (uartRx i) as [c|];
    [|exists []; split; [now rewrite app_nil_r | reflexivity]].
  destruct (c =? "1")%char;
    [eexists; split; [apply uart_write_tx | destruct (alarmState s); reflexivity]|].
  destruct (c =? "2")%char;
    [eexists; split; [apply uart_write_tx | destruct (gasDetector i); reflexivity]|].
  destruct (c =? "3")%char;
    [eexists; split;
     [apply uart_write_tx | destruct (overTempDetector i); reflexivity]|].
  eexists; split; [cbn; rewrite <- !app_assoc; reflexivity | reflexivity].
Qed.

Lemma sendWarningIfNeeded_tx (i : Inputs) (s : State) :
  exists blocks : list string,
    uartTx (sendWarningIfNeeded i s) = (uartTx s ++ blocks)%list
    /\ filter isStatusReport blocks = [].
Proof.
  unfold sendWarningIfNeeded.
  destruct (gasDetector i), (overTempDetector i).
  - eexists; split; [cbn; rewrite <- app_assoc; reflexivity | reflexivity].
  - eexists; split; [apply uart_write_tx | reflexivity].
  - eexists; split; [apply uart_write_tx | reflexivity].
  - exists []; split; [now rewrite app_nil_r | reflexivity].
Qed.

Lemma sendStatusReport_tx (i : Inputs) (s : State) :
  exists block : string,
    uartTx (sendStatusReport i s) = (uartTx s ++ [block])%list
    /\ isStatusReport block = true.
Proof.
  unfold sendStatusReport.
  destruct (alarmState s), (gasDetector i), (overTempDetector i);
    eexists; (split; [apply uart_write_tx | reflexivity]).
Qed.

Lemma pass_reportsEmitted (i : Inputs) (s : State) :
  reportsEmitted i s
  = if report_period <=? clockAtRead i - reportTimer s then 1%nat else 0%nat.
Proof.
  unfold reportsEmitted, loop_body; cbv zeta.
  set (s2 := alarmDeactivationUpdate i (alarmActivationUpdate i s)).
  assert (Htx2 : uartTx s2 = uartTx s) by apply alarm_updates_tx.
  assert (Ht2 : reportTimer s2 = reportTimer s) by apply alarm_updates_timer.
  destruct (uartTask_tx i s2) as (u & Hu & Hfu).
  unfold timer_read. rewrite uartTask_timer, Ht2.
  destruct (report_period <=? clockAtRead i - reportTimer s).
  - destruct (sendStatusReport_tx i (uartTask i s2)) as (r & Hr & Hfr).
    destruct (sendWarningIfNeeded_tx i
                (timer_reset (clockAtReset i)
                   (sendStatusReport i (uartTask i s2)))) as (w & Hw & Hfw).
    rewrite (written_app s _ (u ++ [r] ++ w)).
    + rewrite !filter_app, Hfu, Hfw. cbn. rewrite Hfr. reflexivity.
    + rewrite Hw, timer_reset_tx, Hr, Hu, Htx2, <- !app_assoc. reflexivity.
  - destruct (sendWarningIfNeeded_tx i (uartTask i s2)) as (w & Hw & Hfw).
    rewrite (written_app s _ (u ++ w)).
    + rewrite filter_app, Hfu, Hfw. reflexivity.
    + rewrite Hw, Hu, Htx2, <- app_assoc. reflexivity.
Qed.

Lemma pass_reportTimer (i : Inputs) (s : State) :
  reportTimer (loop_body i s)
  = if report_period <=? clockAtRead i - reportTimer s
    then clockAtReset i else reportTimer s.
Proof.
  unfold loop_body; cbv zeta. rewrite sendWarningIfNeeded_timer.
  unfold timer_read. rewrite uartTask_timer, alarm_updates_timer.
  destruct (report_period <=? clockAtRead i - reportTimer s);
    [reflexivity|].
  now rewrite uartTask_timer, alarm_updates_timer.
Qed.

Lemma reportTimes_timerTrace (passes : list Inputs) :
  forall s : State,
    reportTimes passes s = timerTrace (reportTimer s) (map clocks passes).
Proof.
  induction passes as [|i rest IH]; intros s; [reflexivity|].
  cbn. rewrite IH, pass_reportsEmitted, pass_reportTimer.
  destruct (report_period <=? clockAtRead i - reportTimer s); reflexivity.
Qed.

Lemma timerTrace_spaced (cs : list (Z * Z)) :
  forall start from : Z,
    Forall (fun c => fst c <= snd c) cs ->
    from <= start ->
    spaced from (timerTrace start cs).
Proof.
  induction cs as [|[r z] rest IH]; intros start from Hall Hle; cbn; [exact I|].
  inversion Hall as [|x l Hrz Hrest]; subst. cbn in Hrz.
  destruct (report_period <=? r - start) eqn:E.
  - apply Z.leb_le in E. cbn. split; [lia|].
    apply IH; [exact Hrest | exact Hrz].
  - apply IH; assumption.
Qed.

Lemma spaced_lower (times : list Z) :
  forall from : Z,
    spaced from times -> Forall (fun t => from + report_period <= t) times.
Proof.
  induction times as [|t rest IH]; intros from H; constructor.
  - exact (proj1 H).
  - destruct H as [Hle Hrest]. apply IH in Hrest.
    eapply Forall_impl; [|exact Hrest].
    cbn. unfold report_period in *. intros x Hx. lia.
Qed.

Lemma window_at_most_one (times : list Z) :
  forall from w : Z,
    spaced from times ->
    (reportsWithin w (w + report_period) times <= 1)%nat.
Proof.
  unfold reportsWithin.
  induction times as [|t rest IH]; intros from w H; cbn; [lia|].
  destruct H as [Hle Hrest].
  destruct ((w <=? t) && (t <? w + report_period)) eqn:E.
  - apply andb_true_iff in E as [E1 E2]. apply Z.leb_le in E1.
    replace (filter (fun x => (w <=? x) && (x <? w + report_period)) rest)
      with (@nil Z); [cbn; lia|].
    symmetry. apply spaced_lower in Hrest. clear IH.
    induction Hrest as [|x l Hx Hl IHl]; [reflexivity|]. cbn.
    replace (x <? w + report_period) with false
      by (symmetry; apply Z.ltb_ge; lia).
    rewrite andb_false_r. exact IHl.
  - exact (IH t w Hrest).
Qed.

(** C8, as the code has it.  A pass emits the status report exactly when the
    timer reads at least 5.0 s since its last reset, and resets the timer in
    that pass and in no other.  The passes that report are fixed by the clock
    samples and the last reset alone, so serial traffic does not move them.
    Two successive reports are at least 5.0 s apart, the first at least 5.0 s
    after the last reset, so a window of 5.0 s holds at most one report;
    nothing bounds the distance from above. *)
Theorem periodic_report :
  forall (i : Inputs) (s : State),
    reportsEmitted i s
    = (if report_period <=? clockAtRead i - reportTimer s
       then 1%nat else 0%nat)
    /\ reportTimer (loop_body i s)
       = (if report_period <=? clockAtRead i - reportTimer s
          then clockAtReset i else reportTimer s)
    /\ (forall passes : list Inputs,
          reportTimes passes s = timerTrace (reportTimer s) (map clocks passes))
    /\ (forall passes : list Inputs,
          Forall (fun p => clockAtRead p <= clockAtReset p) passes ->
          spaced (reportTimer s) (reportTimes passes s)
          /\ forall w : Z,
               (reportsWithin w (w + report_period) (reportTimes passes s)
                <= 1)%nat).
Proof.
  intros i s. split; [apply pass_reportsEmitted|].
  split; [apply pass_reportTimer|].
  split; [intros passes; apply reportTimes_timerTrace|].
  intros passes Hall.
  assert (H : spaced (reportTimer s) (reportTimes passes s)).
  { rewrite reportTimes_timerTrace.
    apply timerTrace_spaced; [|lia].
    induction Hall as [|p l Hp Hl IH]; constructor; assumption. }
  split; [exact H|].
  intros w. exact (window_at_most_one _ _ w H).
Qed.

Lemma periodic_report_witness :
  Forall (fun p => clockAtRead p <= clockAtReset p) (idleSchedule 120)
  /\ spaced 0 (reportTimes (idleSchedule 120) (initialState 0))
  /\ reportTimes (idleSchedule 120) (initialState 0) = [5050000; 10100000].
Proof.
  assert (H : Forall (fun p => clockAtRead p <= clockAtReset p)
                     (idleSchedule 120)).
  { apply Forall_forall. intros p Hin. unfold idleSchedule in Hin.
    apply in_map_iff in Hin as (k & <- & _). cbn. lia. }
  split; [exact H|]. split.
  - exact (proj1 (proj2 (proj2 (proj2 (periodic_report quiet (initialState 0))))
                        (idleSchedule 120) H)).
  - vm_compute. reflexivity.
Defined.

(** C8 as stated fails.  With a pass every 101 ms and no serial traffic the
    reports come 5.05 s apart; the window from 500 s to 505 s after the timer
    start holds no report, though the run goes on to 515 s. *)
Lemma window_without_report :
  reportsWithin (100 * report_period) (100 * report_period + report_period)
                (reportTimes (idleSchedule (51 * 100)) (initialState 0)) = 0%nat
  /\ reportsWithin (99 * report_period) (99 * report_period + report_period)
                   (reportTimes (idleSchedule (51 * 100)) (initialState 0)) = 1%nat
  /\ reportsWithin (101 * report_period) (101 * report_period + report_period)
                   (reportTimes (idleSchedule (51 * 100)) (initialState 0)) = 1%nat.
Proof. vm_compute. repeat split. Qed.

(** ** Replies, report and warnings within a pass *)




Lemma tx_of_written (s s' : State) :
  (exists blocks, uartTx s' = (uartTx s ++ blocks)%list) ->
  uartTx s' = (uartTx s ++ written s s')%list.
Proof.
  intros (blocks & H). now rewrite (written_app s s' blocks H).
Qed.

(** The reply of [uartTask] in two states with the same [alarmState]. *)
Lemma uartTask_reply_alarmState (i : Inputs) (s s' : State) :
  alarmState s = alarmState s' ->
  written s (uartTask i s) = written s' (uartTask i s').
Proof.
  intros H. unfold uartTask, availableCommands.
  destruct (uartRx i) as [c|].
  - destruct (c =? "1")%char.
    { rewrite H.
      now rewrite (written_app s _ _ (uart_write_tx _ _ s)),
                  (written_app s' _ _ (uart_write_tx _ _ s')). }
    destruct (c =? "2")%char.
    { now rewrite (written_app s _ _ (uart_write_tx _ _ s)),
                  (written_app s' _ _ (uart_write_tx _ _ s')). }
    destruct (c =? "3")%char.
    { now rewrite (written_app s _ _ (uart_write_tx _ _ s)),
                  (written_app s' _ _ (uart_write_tx _ _ s')). }
    erewrite (written_app s), (written_app s');
      [reflexivity | cbn; rewrite <- !app_assoc; reflexivity ..].
  - erewrite (written_app s s), (written_app s' s');
      [reflexivity | now rewrite app_nil_r ..].
Qed.

(** What the blocks of a reply are not, and how long they are together. *)
Lemma uartTask_reply_facts (i : Inputs) (s : State) :
  filter isGasWarning (written s (uartTask i s)) = []
  /\ filter isTempWarning (written s (uartTask i s)) = []
  /\ (String.length (String.concat "" (written s (uartTask i s))) <= 127)%nat.
Proof.
  unfold uartTask, availableCommands.
  destruct (uartRx i) as [c|].
  - destruct (c =? "1")%char.
    { rewrite (written_app s _ _ (uart_write_tx _ _ s)).
      destruct (alarmState s); cbn; repeat split; lia. }
    destruct (c =? "2")%char.
    { rewrite (written_app s _ _ (uart_write_tx _ _ s)).
      destruct (gasDetector i); cbn; repeat split; lia. }
    destruct (c =? "3")%char.
    { rewrite (written_app s _ _ (uart_write_tx _ _ s)).
      destruct (overTempDetector i); cbn; repeat split; lia. }
    erewrite (written_app s);
      [|cbn; rewrite <- !app_assoc; reflexivity].
    cbn; repeat split; lia.
  - erewrite (written_app s s); [|now rewrite app_nil_r].
    cbn; repeat split; lia.
Qed.

Lemma sendStatusReport_block (i : Inputs) (s : State) :
  uartTx (sendStatusReport i s)
  = (uartTx s
     ++ [statusText (alarmState s) (gasDetector i) (overTempDetector i)])%list.
Proof.
  unfold sendStatusReport.
  destruct (alarmState s), (gasDetector i), (overTempDetector i);
    reflexivity.
Qed.

(** The blocks of a pass: the reply, the report when it is due, the
    warnings; with [s'] the state the pass ends in. *)
Lemma pass_blocks (i : Inputs) (s : State) :
  uartTx (loop_body i s)
  = (uartTx s
     ++ written (loop_body i s) (uartTask i (loop_body i s))
     ++ (if reportDue i s
         then [statusText (alarmState (loop_body i s))
                          (gasDetector i) (overTempDetector i)]
         else [])
     ++ written (loop_body i s) (sendWarningIfNeeded i (loop_body i s)))%list.
Proof.
  assert (Hcore := loop_body_core i s).
  assert (Halarm : alarmState (loop_body i s)
                   = alarmState (alarmDeactivationUpdate i
                                   (alarmActivationUpdate i s))).
  { unfold alarmCore in Hcore. now inversion Hcore. }
  rewrite Halarm.
  rewrite (uartTask_reply_alarmState i (loop_body i s)
             (alarmDeactivationUpdate i (alarmActivationUpdate i s)) Halarm).
  rewrite !warning_blocks.
  unfold loop_body, reportDue; cbv zeta.
  set (s2 := alarmDeactivationUpdate i (alarmActivationUpdate i s)).
  assert (Htx2 : uartTx s2 = uartTx s) by apply alarm_updates_tx.
  assert (Ht2 : reportTimer s2 = reportTimer s) by apply alarm_updates_timer.
  assert (Hu : uartTx (uartTask i s2)
               = (uartTx s2 ++ written s2 (uartTask i s2))%list).
  { apply tx_of_written. destruct (uartTask_tx i s2) as (u & Hu & _).
    now exists u. }
  assert (Ha3 : alarmState (uartTask i s2) = alarmState s2).
  { pose proof (uartTask_core i s2) as H. unfold alarmCore in H.
    now inversion H. }
  unfold timer_read. rewrite uartTask_timer, Ht2.
  match goal with
  | |- uartTx (sendWarningIfNeeded i ?x) = _ =>
      rewrite (tx_of_written x (sendWarningIfNeeded i x));
        [rewrite warning_blocks
        | destruct (sendWarningIfNeeded_tx i x) as (w & Hw & _); now exists w]
  end.
  destruct (report_period <=? clockAtRead i - reportTimer s).
  - rewrite timer_reset_tx, sendStatusReport_block, Ha3, Hu, Htx2.
    rewrite <- !app_assoc. reflexivity.
  - rewrite Hu, Htx2, <- !app_assoc. reflexivity.
Qed.


(** X2. Nothing received over the serial line reaches the alarm: a pass
    leaves the LEDs, [alarmState], the counter and the report timer the same
    whatever byte, or none, is waiting; with no byte waiting [uartTask]
    changes nothing at all. *)
Theorem serial_input_is_read_only :
  forall (s : State) (e g t a b c d : bool) (r z : Z) (rx : option ascii),
    alarmCore (loop_body (mkInputs e g t a b c d rx r z) s)
    = alarmCore (loop_body (mkInputs e g t a b c d None r z) s)
    /\ reportTimer (loop_body (mkInputs e g t a b c d rx r z) s)
       = reportTimer (loop_body (mkInputs e g t a b c d None r z) s)
    /\ uartTask (mkInputs e g t a b c d None r z) s = s.
Proof.
  intros s e g t a b c d r z rx. split; [|split; [|reflexivity]].
  - rewrite !loop_body_core. reflexivity.
  - rewrite !pass_reportTimer. reflexivity.
Qed.

(** X3. [sendStatusReport] writes one block, the formatted text whole: the
    128-byte buffer never cuts it (it is at most 69 bytes) and no terminator
    is sent.  The block is six complete lines: an empty one, the header, the
    alarm, gas and temperature lines, an empty one. *)
Theorem status_report_block :
  forall (i : Inputs) (s : State),
    written s (sendStatusReport i s)
    = [statusText (alarmState s) (gasDetector i) (overTempDetector i)]
    /\ (String.length
          (statusText (alarmState s) (gasDetector i) (overTempDetector i))
        <= 69)%nat
    /\ completeLines ""
         (statusText (alarmState s) (gasDetector i) (overTempDetector i))
       = [""; "[STATUS REPORT]";
          "Alarm: " ++ (if alarmState s then "ON" else "OFF");
          "Gas: " ++ (if gasDetector i then "Detected" else "Normal");
          "Temperature: " ++ (if overTempDetector i then "High" else "Normal");
          ""].
Proof.
  intros i s. split; [apply written_app, sendStatusReport_block|].
  destruct (alarmState s), (gasDetector i), (overTempDetector i);
    cbn; split; (lia || reflexivity).
Qed.

(** X4. The blocks of a pass come in this order: the reply to a received
    byte, then the status report if it is due, then the warnings.  The reply
    and the report show [alarmState] as the pass leaves it, after
    [alarmDeactivationUpdate]: a pass that accepts the code already reports
    the alarm as off. *)
Theorem pass_output :
  forall (i : Inputs) (s : State),
    written s (loop_body i s)
    = (written (loop_body i s) (uartTask i (loop_body i s))
       ++ (if reportDue i s
           then [statusText (alarmState (loop_body i s))
                            (gasDetector i) (overTempDetector i)]
           else [])
       ++ (if gasDetector i
           then [("[WARNING] Gas levels unsafe!" ++ String CR EmptyString)
                 %string]
           else [])
       ++ (if overTempDetector i
           then [("[WARNING] Temperature too high!" ++ crlf)%string]
           else []))%list.
Proof.
  intros i s. apply written_app.
  rewrite (pass_blocks i s) at 1. rewrite warning_blocks. reflexivity.
Qed.


Lemma pass_warning_counts (i : Inputs) (s : State) :
  List.length (filter isGasWarning (written s (loop_body i s)))
  = (if gasDetector i then 1 else 0)%nat
  /\ List.length (filter isTempWarning (written s (loop_body i s)))
     = (if overTempDetector i then 1 else 0)%nat.
Proof.
  rewrite (written_app s _ _ (pass_blocks i s)), warning_blocks.
  destruct (uartTask_reply_facts i (loop_body i s)) as (Hg & Ht & _).
  rewrite !filter_app, Hg, Ht.
  destruct (reportDue i s), (alarmState (loop_body i s)),
    (gasDetector i), (overTempDetector i); split; reflexivity.
Qed.

Lemma run_tx (passes : list Inputs) :
  forall s : State,
    uartTx (run passes s) = (uartTx s ++ written s (run passes s))%list.
Proof.
  induction passes as [|i rest IH]; intros s; cbn.
  - apply tx_of_written. exists []. now rewrite app_nil_r.
  - apply tx_of_written. rewrite IH, (pass_blocks i s).
    eexists. rewrite <- app_assoc. reflexivity.
Qed.

Lemma run_written (i : Inputs) (rest : list Inputs) (s : State) :
  written s (run (i :: rest) s)
  = (written s (loop_body i s)
     ++ written (loop_body i s) (run rest (loop_body i s)))%list.
Proof.
  apply written_app. cbn. rewrite run_tx.
  rewrite (tx_of_written s (loop_body i s)) at 1;
    [now rewrite <- app_assoc|].
  eexists. apply pass_blocks.
Qed.

(** X6. Warnings are never held back: over any run, the gas warnings written
    are as many as the passes in which the gas sensor read true, and the
    temperature warnings as many as the passes in which the over-temperature
    sensor read true. *)
Theorem warnings_over_a_run :
  forall (passes : list Inputs) (s : State),
    List.length (filter isGasWarning (written s (run passes s)))
    = List.length (filter gasDetector passes)
    /\ List.length (filter isTempWarning (written s (run passes s)))
       = List.length (filter overTempDetector passes).
Proof.
  induction passes as [|i rest IH]; intros s.
  - cbn. unfold written. rewrite skipn_all. split; reflexivity.
  - rewrite run_written, !filter_app, !length_app.
    destruct (pass_warning_counts i s) as (Hg & Ht).
    destruct (IH (loop_body i s)) as (IHg & IHt).
    rewrite Hg, Ht, IHg, IHt. cbn.
    destruct (gasDetector i), (overTempDetector i); split; reflexivity.
Qed.

(** ** Indicators and lockout over runs *)

Lemma pass_alarmLed (i : Inputs) (s : State) :
  alarmLed (loop_body i s) = alarmState s || hazard i.
Proof.
  destruct (loop_body_fields i s) as (H & _). rewrite H. clear H.
  unfold hazard, alarmDeactivationUpdate, alarmActivationUpdate.
  alarm_cases i s.
Qed.

Lemma pass_indicatorsConsistent (i : Inputs) (s : State) :
  indicatorsConsistent s -> indicatorsConsistent (loop_body i s).
Proof.
  intros (Hb & Hal & Hled & Hblk & H5).
  assert (Hrange : int_range (numberOfIncorrectCodes s))
    by (unfold int_range, INT_MIN, INT_MAX; lia).
  unfold indicatorsConsistent.
  rewrite pass_alarmLed, loop_body_alarmState, pass_incorrectCodeLed,
    pass_systemBlockedLed, (pass_counter i s Hrange).
  unfold attempt, clearCondition.
  destruct (numberOfIncorrectCodes s <? 5) eqn:E;
    [apply Z.ltb_lt in E | apply Z.ltb_ge in E].
  - destruct (systemBlockedLed s); [specialize (Hblk eq_refl); lia|].
    destruct (enterButton i), (incorrectCodeLed s), (rightCode i),
      (alarmState s || hazard i),
      (aButton i && bButton i && cButton i && dButton i);
      cbn; repeat split; intros; try discriminate; try lia;
      try (apply Hled; reflexivity);
      try (destruct (deactivationObserved i s); cbn in *; congruence).
  - assert (E5 : numberOfIncorrectCodes s = 5) by lia.
    rewrite (H5 E5), !andb_false_r. cbn.
    repeat split; intros; try lia; try reflexivity.
    destruct (alarmState s || hazard i); [reflexivity|].
    cbn in *. discriminate.
Qed.

Lemma run_indicatorsConsistent (passes : list Inputs) :
  forall s : State,
    indicatorsConsistent s -> indicatorsConsistent (run passes s).
Proof.
  induction passes as [|i rest IH]; intros s H; [exact H|].
  cbn. apply IH, pass_indicatorsConsistent, H.
Qed.

(** X7. At the end of every pass of every run from the initial state: the
    alarm LED is on whenever [alarmState] is; the incorrect-code indicator is
    on only while at least one incorrect code is counted; the system-blocked
    indicator is on only when the counter is 5; and when the counter is 5 the
    incorrect-code indicator is on, so in the lockout both stay lit. *)
Theorem indicators_consistent :
  forall (t0 : Z) (passes : list Inputs),
    indicatorsConsistent (run passes (initialState t0)).
Proof.
  intros t0 passes. apply run_indicatorsConsistent.
  unfold indicatorsConsistent; cbn.
  repeat split; intros; try lia; discriminate.
Qed.

Lemma indicators_consistent_witness :
  systemBlockedLed
    (run (fiveFailures ++ [quiet]) (initialState 0)) = true
  /\ numberOfIncorrectCodes
       (run (fiveFailures ++ [quiet]) (initialState 0)) = 5
  /\ incorrectCodeLed
       (run (fiveFailures ++ [quiet]) (initialState 0)) = true.
Proof.
  destruct (indicators_consistent 0 (fiveFailures ++ [quiet]))
    as (_ & _ & _ & Hblk & H5).
  split; [reflexivity|].
  split; [exact (Hblk eq_refl) | exact (H5 (Hblk eq_refl))].
Defined.





(** ** How late a report can be *)





(** ** Buttons while the alarm is off *)

(** X10. While the alarm is off and no hazard is read, the buttons cannot
    count against the user: whatever is pressed, enter included, a pass
    leaves the counter as it was and the alarm off, and it does not light
    the incorrect-code indicator. *)
Theorem no_penalty_while_alarm_off :
  forall (i : Inputs) (s : State),
    alarmState s = false ->
    hazard i = false ->
    numberOfIncorrectCodes (loop_body i s) = numberOfIncorrectCodes s
    /\ alarmState (loop_body i s) = false
    /\ (incorrectCodeLed s = false -> incorrectCodeLed (loop_body i s) = false).
Proof.
  intros i s Hoff Hhaz. split; [|split].
  - destruct (loop_body_fields i s) as (_ & _ & _ & _ & H). rewrite H. clear H.
    revert Hoff Hhaz.
    unfold hazard, alarmDeactivationUpdate, alarmActivationUpdate.
    alarm_cases i s.
  - rewrite loop_body_alarmState, Hoff, Hhaz. reflexivity.
  - intros Hled. rewrite pass_incorrectCodeLed. unfold attempt.
    rewrite Hoff, Hhaz, Hled, !andb_false_r.
    now destruct (clearCondition i s).
Qed.

Lemma no_penalty_witness :
  numberOfIncorrectCodes
    (loop_body (mkInputs true false false true false false false None 0 0)
               (initialState 0)) = 0
  /\ incorrectCodeLed
       (loop_body (mkInputs true false false true false false false None 0 0)
                  (initialState 0)) = false.
Proof.
  destruct (no_penalty_while_alarm_off
              (mkInputs true false false true false false false None 0 0)
              (initialState 0) eq_refl eq_refl) as (Hc & _ & Hl).
  split; [exact Hc | exact (Hl eq_refl)].
Defined.
